(** * Shallow embedding of the certificate intake / unrevoke pipeline of
    [src/src/App.tsx] (the [App] component's state and its handlers
    [handleFileUpload], [simulateUnrevoke] and [handleDownload]).

    The React component state ([certificates], [selectedFile],
    [isProcessing]) is an explicit record; each handler is a function from
    a state to the next state and the list of observable outputs
    (notifications and file-save interactions).  The [async] pipeline is
    modelled by keeping each started run in a list of pending runs, with the
    number of [setTimeout] delays it still awaits; the event loop resolves one
    such delay per [EvTick] event, and the code after the loop runs in the
    same event that resolves the last delay.  Strings are ASCII strings
    (JavaScript's UTF-16 code units restricted to ASCII). *)

From Stdlib Require Import QArith.
From stdpp Require Import base list strings pretty.

Open Scope string_scope.

(** ** Data model *)

(** A browser [File]: its name and its contents ([size] is the length of
    the contents). *)
Record File := mkFile {
  file_name : string;
  file_bytes : list Byte.byte
}.

Definition file_size (f : File) : nat := length (file_bytes f).

(** The runtime value held in the optional [file?: File] field: [undefined],
    a [File] (a [Blob]), or some other value that fails [instanceof Blob]. *)
Inductive JsFile :=
| JsUndefined
| JsFileVal (f : File)
| JsNonBlob.

Inductive Status := Revoked | Active | Processing.

Inductive CertType := Development | Distribution.

(** [interface CertificateInfo]. Dates are kept as the millisecond clock
    value passed to [new Date(...)]; [toLocaleDateString] only renders it. *)
Record CertificateInfo := mkCert {
  cert_id : string;
  cert_name : string;
  cert_status : Status;
  cert_issueDate : Z;
  cert_expiryDate : Z;
  cert_bundleId : string;
  cert_type : CertType;
  cert_file : JsFile
}.

Inductive ToastVariant := VDefault | VDestructive.

Record Toast := mkToast {
  toast_title : string;
  toast_description : string;
  toast_variant : ToastVariant
}.

(** Observable effects of a handler: a [toast(...)] call, or the synthetic
    click on an [<a download=...>] whose [href] is an object URL of a blob. *)
Inductive Output :=
| OToast (t : Toast)
| OSave (download_name : string) (contents : list Byte.byte).

(** A started [simulateUnrevoke] call suspended in its [for] loop: the
    [selectedFile] its closure captured and the delays still awaited. *)
Record Run := mkRun {
  run_file : File;
  run_left : nat
}.

Record AppState := mkState {
  certificates : list CertificateInfo;
  selectedFile : option File;
  isProcessing : bool;
  pending : list Run
}.

(** [useState<CertificateInfo[]>([])], [useState<File | null>(null)],
    [useState(false)]. *)
Definition initial : AppState := mkState [] None false [].

(** The values returned by [Date.now()] (three calls) and [Math.random()]
    when the code after the loop of [simulateUnrevoke] runs. *)
Record Env := mkEnv {
  now_id : Z;
  now_issue : Z;
  now_expiry : Z;
  random : Q
}.

Inductive Event :=
| EvUpload (files : list File)        (** [onChange={handleFileUpload}] *)
| EvStart                             (** [onClick={simulateUnrevoke}] *)
| EvTick (k : nat) (env : Env)        (** the current delay of run [k] elapses *)
| EvDownload (c : CertificateInfo).   (** [onClick={() => handleDownload(cert.file, cert.name)}] *)

(** ** String operations of the source *)

(** [s.endsWith(suffix)]. *)
Definition endsWith (s suffix : string) : bool :=
  let n := String.length s in
  let m := String.length suffix in
  (m <=? n)%nat && String.eqb (String.substring (n - m) m s) suffix.

(** [s.replace(pattern, replacement)] with a string pattern: only the first
    occurrence is replaced. *)
Definition replace (s pattern replacement : string) : string :=
  match String.index 0 pattern s with
  | Some i =>
      String.substring 0 i s +:+ replacement +:+
      String.substring (i + String.length pattern)
        (String.length s - (i + String.length pattern)) s
  | None => s
  end.

(** [`cert_${n}`] for an integral [Number]. *)
Definition template_cert (n : Z) : string := "cert_" +:+ pretty n.

(** ** Handlers *)

Definition toast_uploaded (f : File) : Toast :=
  mkToast "Certificate uploaded" (file_name f +:+ " ready for processing") VDefault.
Definition toast_invalid : Toast :=
  mkToast "Invalid file format" "Please upload a .p12 certificate file" VDestructive.
Definition toast_missing : Toast :=
  mkToast "Missing file" "Please upload a certificate file." VDestructive.
Definition toast_success : Toast :=
  mkToast "Success!" "Certificate has been successfully unrevoked" VDefault.
Definition toast_download_failed : Toast :=
  mkToast "Download failed" "Certificate file is missing or invalid." VDestructive.

(** [handleFileUpload]: [event.target.files?.[0]]. *)
Definition handleFileUpload (st : AppState) (files : list File)
    : AppState * list Output :=
  match head files with
  | Some file =>
      if endsWith (file_name file) ".p12"
      then (mkState (certificates st) (Some file) (isProcessing st) (pending st),
            [OToast (toast_uploaded file)])
      else (st, [OToast toast_invalid])
  | None => (st, [OToast toast_invalid])
  end.

(** The [steps] array; only its length matters to the control flow. *)
Definition steps : list (Z * string) :=
  [(20, "Validating certificate...");
   (40, "Decrypting P12 file...");
   (60, "Checking revocation status...");
   (80, "Initiating unrevoke process...");
   (100, "Certificate unrevoked successfully!")]%Z.

(** [simulateUnrevoke] up to its first [await]. *)
Definition simulateUnrevoke_start (st : AppState) : AppState * list Output :=
  match selectedFile st with
  | None => (st, [OToast toast_missing])
  | Some f =>
      (mkState (certificates st) (selectedFile st) true
               (pending st ++ [mkRun f (length steps)]), [])
  end.

(** [const newCert: CertificateInfo = {...}]. *)
Definition newCert (selected : File) (env : Env) : CertificateInfo :=
  mkCert (template_cert (now_id env))
         (replace (file_name selected) ".p12" "")
         Active
         (now_issue env - 30 * 24 * 60 * 60 * 1000)%Z
         (now_expiry env + 365 * 24 * 60 * 60 * 1000)%Z
         "com.example.app"
         (if Qle_bool (random env) (1 # 2) then Distribution else Development)
         (JsFileVal selected).

(** [simulateUnrevoke] after its loop: [setCertificates(prev => [newCert,
    ...prev])], the success toast and [setSelectedFile(null)]; the run is
    finished. [isProcessing] is left as it is. *)
Definition simulateUnrevoke_finish (st : AppState) (k : nat) (r : Run) (env : Env)
    : AppState * list Output :=
  (mkState (newCert (run_file r) env :: certificates st) None (isProcessing st)
           (delete k (pending st)),
   [OToast toast_success]).

(** One [await new Promise(resolve => setTimeout(resolve, 1000))] of the
    [k]-th pending run resolves. *)
Definition tick (st : AppState) (k : nat) (env : Env) : AppState * list Output :=
  match pending st !! k with
  | None => (st, [])
  | Some r =>
      match run_left r with
      | 0 | 1 => simulateUnrevoke_finish st k r env
      | S n =>
          (mkState (certificates st) (selectedFile st) (isProcessing st)
                   (<[k := mkRun (run_file r) n]> (pending st)), [])
      end
  end.

(** [a.download = name.endsWith('.p12') ? name : name + '.p12']. *)
Definition download_name (name : string) : string :=
  if endsWith name ".p12" then name else name +:+ ".p12".

(** [handleDownload(file, name)]. *)
Definition handleDownload (st : AppState) (file : JsFile) (name : string)
    : AppState * list Output :=
  match file with
  | JsFileVal f => (st, [OSave (download_name name) (file_bytes f)])
  | _ => (st, [OToast toast_download_failed])
  end.

Definition step (st : AppState) (ev : Event) : AppState * list Output :=
  match ev with
  | EvUpload files => handleFileUpload st files
  | EvStart => simulateUnrevoke_start st
  | EvTick k env => tick st k env
  | EvDownload c => handleDownload st (cert_file c) (cert_name c)
  end.

Fixpoint run_events (st : AppState) (evs : list Event) : AppState :=
  match evs with
  | [] => st
  | ev :: evs' => run_events (fst (step st ev)) evs'
  end.

(** ** Scenarios and invariants used below *)

(** The events of one run from the click to the end of its fifth delay,
    the run being the only one pending (index 0). *)
Definition one_run (env : Env) : list Event :=
  [EvStart; EvTick 0 env; EvTick 0 env; EvTick 0 env; EvTick 0 env; EvTick 0 env].

Definition cert1 : File := mkFile "cert1.p12" [Byte.x30; Byte.x82].
Definition env1 : Env := mkEnv 1700000005000 1700000005000 1700000005000 (3 # 4).

Definition env2 : Env := mkEnv 1700000011000 1700000011000 1700000011000 (1 # 4).
Definition cert2 : File := mkFile "cert2.p12" [Byte.x31].

Definition files_retained (st : AppState) : Prop :=
  forall c, c ∈ certificates st -> exists f, cert_file c = JsFileVal f.

(** Two runs started on the same selected file ([simulateUnrevoke] itself
    has no guard on [isProcessing]) whose delays elapse interleaved and
    which both complete while [Date.now()] reads the same millisecond. *)
Definition env_dev : Env := mkEnv 1700000005000 1700000005000 1700000005000 (3 # 4).
Definition env_dist : Env := mkEnv 1700000005000 1700000005000 1700000005000 (1 # 4).

Definition concurrent_runs : list Event :=
  [EvUpload [cert1]; EvStart; EvStart;
   EvTick 0 env_dev; EvTick 1 env_dist; EvTick 0 env_dev; EvTick 1 env_dist;
   EvTick 0 env_dev; EvTick 1 env_dist; EvTick 0 env_dev; EvTick 1 env_dist;
   EvTick 0 env_dev; EvTick 0 env_dist].

(** ** Rendering and the guards of the rendered controls *)

Inductive BadgeVariant := BadgeGreen | BadgeDestructive | BadgeSecondary.

(** [getStatusBadge]: the badge's variant and its label. *)
Definition getStatusBadge (status : Status) : BadgeVariant * string :=
  match status with
  | Active => (BadgeGreen, "Active")
  | Revoked => (BadgeDestructive, "Revoked")
  | Processing => (BadgeSecondary, "Processing")
  end.

(** [disabled={!selectedFile || isProcessing}] on the Unrevoke button. *)
Definition unrevoke_disabled (st : AppState) : bool :=
  match selectedFile st with
  | None => true
  | Some _ => isProcessing st
  end.

(** [disabled={!cert.file}] on a record's Download button: only
    [undefined] is falsy among the values the field can hold. *)
Definition download_disabled (c : CertificateInfo) : bool :=
  match cert_file c with
  | JsUndefined => true
  | _ => false
  end.

(** What a user can do on the rendered page: pick files in the input, click
    the Unrevoke button, click the Download button of the [i]-th rendered
    record ([certificates.map]); the timers keep firing on their own. *)
Inductive UiEvent :=
| UiUpload (files : list File)
| UiClickUnrevoke
| UiTick (k : nat) (env : Env)
| UiClickDownload (i : nat).

(** A click on a disabled button, or on a record that is not rendered,
    does nothing. *)
Definition ui_step (st : AppState) (u : UiEvent) : AppState * list Output :=
  match u with
  | UiUpload files => step st (EvUpload files)
  | UiClickUnrevoke => if unrevoke_disabled st then (st, []) else step st EvStart
  | UiTick k env => step st (EvTick k env)
  | UiClickDownload i =>
      match certificates st !! i with
      | Some c => if download_disabled c then (st, []) else step st (EvDownload c)
      | None => (st, [])
      end
  end.

(** Final state and all outputs, in order, of a sequence of events. *)
Fixpoint run_trace (st : AppState) (evs : list Event) : AppState * list Output :=
  match evs with
  | [] => (st, [])
  | ev :: evs' =>
      let '(st1, o1) := step st ev in
      let '(st2, o2) := run_trace st1 evs' in
      (st2, (o1 ++ o2)%list)
  end.

Fixpoint ui_run (st : AppState) (us : list UiEvent) : AppState * list Output :=
  match us with
  | [] => (st, [])
  | u :: us' =>
      let '(st1, o1) := ui_step st u in
      let '(st2, o2) := ui_run st1 us' in
      (st2, (o1 ++ o2)%list)
  end.

#[global] Instance ToastVariant_eq_dec : EqDecision ToastVariant.
Proof. solve_decision. Defined.

#[global] Instance Toast_eq_dec : EqDecision Toast.
Proof. solve_decision. Defined.

(** The outputs that are the "Success!" notification of a finished run. *)
Definition count_success (outs : list Output) : nat :=
  length (List.filter (fun o => match o with
                           | OToast t => bool_decide (t = toast_success)
                           | OSave _ _ => false
                           end) outs).

Definition idle_untouched (st : AppState) : Prop :=
  isProcessing st = false -> certificates st = [] /\ pending st = [].

(** The selected file and the files of pending runs have [.p12] names,
    every pending run awaits between one and five delays, and every record
    was built by [newCert] from a [.p12] file. *)
Definition reach_inv (st : AppState) : Prop :=
  (forall f, selectedFile st = Some f -> endsWith (file_name f) ".p12" = true) /\
  Forall (fun r => endsWith (file_name (run_file r)) ".p12" = true /\
                   1 <= run_left r <= length steps) (pending st) /\
  Forall (fun c => exists f env, c = newCert f env /\
                   endsWith (file_name f) ".p12" = true) (certificates st).

Definition single_flight (st : AppState) : Prop :=
  (isProcessing st = false /\ pending st = [] /\ certificates st = []) \/
  (isProcessing st = true /\ (length (pending st) + length (certificates st) = 1)%nat).

Definition scenario : list Event := ([EvUpload [cert1]] ++ one_run env1)%list.

Example replace_first_only : replace "my.p12cert.p12" ".p12" "" = "mycert.p12".
Proof. reflexivity. Qed.

Example template_cert_ex : template_cert 1700000000000%Z = "cert_1700000000000".
Proof. vm_compute. reflexivity. Qed.

(** ** String lemmas *)

Lemma length_app_str (p s : string) :
  String.length (p +:+ s) = (String.length p + String.length s)%nat.
Proof. induction p as [|a p IH]; simpl; [done | by rewrite IH]. Qed.

Lemma substring_0_length (s : string) : String.substring 0 (String.length s) s = s.
Proof. induction s as [|a s IH]; simpl; [done | by rewrite IH]. Qed.

Lemma substring_app_l (p s : string) (m : nat) :
  String.substring (String.length p) m (p +:+ s) = String.substring 0 m s.
Proof.
  induction p as [|a p IH]; simpl; [done|].
  destruct m; exact IH.
Qed.

Lemma substring_split (s : string) (k : nat) :
  (k <= String.length s)%nat ->
  String.substring 0 k s +:+ String.substring k (String.length s - k) s = s.
Proof.
  revert k; induction s as [|a s IH]; intros k Hk; simpl in *.
  - by destruct k.
  - destruct k as [|k]; simpl.
    + by rewrite substring_0_length.
    + change (String a (String.substring 0 k s +:+
                String.substring k (String.length s - k) s) = String a s).
      f_equal. apply IH. lia.
Qed.

(** [endsWith] is the literal-suffix test. *)
Lemma endsWith_spec (s suffix : string) :
  endsWith s suffix = true <-> exists p, s = p +:+ suffix.
Proof.
  unfold endsWith. rewrite andb_true_iff, Nat.leb_le, String.eqb_eq. split.
  - intros [Hle Heq]. exists (String.substring 0 (String.length s - String.length suffix) s).
    pose proof (substring_split s (String.length s - String.length suffix)
                  ltac:(lia)) as Hs.
    replace (String.length s - (String.length s - String.length suffix))%nat
      with (String.length suffix) in Hs by lia.
    rewrite Heq in Hs. exact (eq_sym Hs).
  - intros [p ->]. rewrite length_app_str. split; [lia|].
    replace (String.length p + String.length suffix - String.length suffix)%nat
      with (String.length p) by lia.
    rewrite substring_app_l. apply substring_0_length.
Qed.

Lemma endsWith_app (p suffix : string) : endsWith (p +:+ suffix) suffix = true.
Proof. apply endsWith_spec. by exists p. Qed.

(** ** C2: [handleFileUpload] accepts exactly the names ending in [.p12] *)

(** C2: for every file [f] (the first file of the selection), [selectFile f]
    accepts [f] if and only if its name ends with the literal suffix [.p12]:
    on accept the state is the old one with [selectedFile] replaced by [f]
    (and the upload notification is emitted); on reject the state, and so the
    current [selectedFile], is unchanged and the invalid-format notification
    is emitted. *)
Theorem selectFile_accepts_iff_p12_suffix (st : AppState) (f : File) (rest : list File) :
  ((exists p, file_name f = p +:+ ".p12") ->
   step st (EvUpload (f :: rest)) =
     (mkState (certificates st) (Some f) (isProcessing st) (pending st),
      [OToast (toast_uploaded f)])) /\
  (~ (exists p, file_name f = p +:+ ".p12") ->
   step st (EvUpload (f :: rest)) = (st, [OToast toast_invalid])).
Proof.
  simpl. unfold handleFileUpload; simpl. split; intros H.
  - apply endsWith_spec in H. by rewrite H.
  - destruct (endsWith (file_name f) ".p12") eqn:E; [|done].
    exfalso. apply H, endsWith_spec, E.
Qed.

Lemma selectFile_accepts_iff_p12_suffix_witness :
  step initial (EvUpload [mkFile "cert1.p12" []]) =
    (mkState [] (Some (mkFile "cert1.p12" [])) false [],
     [OToast (toast_uploaded (mkFile "cert1.p12" []))]) /\
  step initial (EvUpload [mkFile "cert1.pem" []]) = (initial, [OToast toast_invalid]).
Proof.
  split.
  - apply (proj1 (selectFile_accepts_iff_p12_suffix initial (mkFile "cert1.p12" []) [])).
    exists "cert1". reflexivity.
  - apply (proj2 (selectFile_accepts_iff_p12_suffix initial (mkFile "cert1.pem" []) [])).
    intros [p Hp]. simpl in Hp.
    assert (endsWith "cert1.pem" ".p12" = true) as E by (rewrite Hp; apply endsWith_app).
    vm_compute in E. discriminate.
Defined.

(** ** C10: an empty selection takes the rejection path *)

(** C10: when the file-selection event carries no file, [handleFileUpload]
    emits the invalid-format error notification (the same one as for a
    wrong suffix) and leaves the state, and so [selectedFile], unchanged. *)
Theorem selectFile_empty_selection_rejected (st : AppState) :
  step st (EvUpload []) = (st, [OToast toast_invalid]) /\
  toast_variant toast_invalid = VDestructive.
Proof. split; reflexivity. Qed.

(** ** C3: [start()] without a selected file *)

(** C3: for every state with no [selectedFile], [simulateUnrevoke] emits
    the "Missing file" error notification and returns the state unchanged:
    record list, [selectedFile], busy flag (and pending runs) all stay. *)
Theorem start_without_file_fails (st : AppState) :
  selectedFile st = None ->
  step st EvStart = (st, [OToast toast_missing]) /\
  toast_variant toast_missing = VDestructive.
Proof. intros H. simpl. unfold simulateUnrevoke_start. by rewrite H. Qed.

Lemma start_without_file_fails_witness :
  selectedFile initial = None /\
  (step initial EvStart = (initial, [OToast toast_missing]) /\
   toast_variant toast_missing = VDestructive).
Proof. split; [reflexivity | apply start_without_file_fails; reflexivity]. Defined.

(** ** C4 and C7: [handleDownload] *)

(** C4: for every record whose retained file handle is a file [f],
    downloading it saves exactly the bytes of [f] and changes no state. *)
Theorem download_roundtrip_bytes (st : AppState) (c : CertificateInfo) (f : File) :
  cert_file c = JsFileVal f ->
  step st (EvDownload c) = (st, [OSave (download_name (cert_name c)) (file_bytes f)]).
Proof. intros H. simpl. unfold handleDownload. by rewrite H. Qed.

(** C7: for every record whose retained handle is absent or is not a
    [Blob], downloading it emits the "Download failed" error notification
    and leaves the state, in particular the record list, unchanged. *)
Theorem download_missing_artifact_fails (st : AppState) (c : CertificateInfo) :
  (forall f, cert_file c <> JsFileVal f) ->
  step st (EvDownload c) = (st, [OToast toast_download_failed]) /\
  toast_variant toast_download_failed = VDestructive.
Proof.
  intros H. simpl. unfold handleDownload.
  destruct (cert_file c) eqn:E; try done.
  exfalso. by apply (H f).
Qed.

(** ** C1: one complete pipeline run *)

Example one_run_length : length (one_run (mkEnv 0 0 0 0)) = S (length steps).
Proof. reflexivity. Qed.

(** C1 (as the code behaves): started with a [selectedFile] [f] and no other
    run pending, after the five delays the run has prepended exactly one
    record ([newCert f env]) and cleared [selectedFile], but the busy flag
    is still [true]: [setIsProcessing(false)] is never called. *)
Theorem pipeline_run_leaves_busy_true (st : AppState) (f : File) (env : Env) :
  selectedFile st = Some f -> pending st = [] ->
  certificates (run_events st (one_run env)) = newCert f env :: certificates st /\
  selectedFile (run_events st (one_run env)) = None /\
  isProcessing (run_events st (one_run env)) = true /\
  pending (run_events st (one_run env)) = [].
Proof.
  destruct st as [cs sel busy pend]; simpl. intros -> ->.
  repeat split; reflexivity.
Qed.

Lemma pipeline_run_leaves_busy_true_witness :
  let st := run_events initial [EvUpload [cert1]] in
  (selectedFile st = Some cert1 /\ pending st = []) /\
  (certificates (run_events st (one_run env1)) = [newCert cert1 env1] /\
   selectedFile (run_events st (one_run env1)) = None /\
   isProcessing (run_events st (one_run env1)) = true /\
   pending (run_events st (one_run env1)) = []).
Proof.
  simpl. split; [split; reflexivity|].
  apply (pipeline_run_leaves_busy_true
           (mkState [] (Some cert1) false []) cert1 env1); reflexivity.
Defined.

(** ** C6: the record list only grows at its front *)

Lemma step_certificates (st : AppState) (ev : Event) :
  certificates (fst (step st ev)) = certificates st \/
  exists c, certificates (fst (step st ev)) = c :: certificates st.
Proof.
  destruct ev as [files| |k env|c]; simpl.
  - unfold handleFileUpload. destruct (head files); [|by left].
    destruct (endsWith _ _); by left.
  - unfold simulateUnrevoke_start. destruct (selectedFile st); by left.
  - unfold tick. destruct (pending st !! k) as [r|]; [|by left].
    destruct (run_left r) as [|[|n]]; simpl; [right; eauto | right; eauto | by left].
  - unfold handleDownload. destruct (cert_file c); by left.
Qed.

(** C6: every handler either leaves the record list as it is or prepends
    exactly one record to it; over any sequence of events the old list is
    kept, unchanged, as the tail of the new one, with the records created
    since in front of it, newest first. *)
Theorem record_store_prepend_only :
  (forall (st : AppState) (ev : Event),
     certificates (fst (step st ev)) = certificates st \/
     exists c, certificates (fst (step st ev)) = c :: certificates st) /\
  (forall (st : AppState) (evs : list Event),
     exists fresh, certificates (run_events st evs) = (fresh ++ certificates st)%list).
Proof.
  split; [exact step_certificates|].
  intros st evs. revert st. induction evs as [|ev evs IH]; intros st; simpl.
  - by exists [].
  - destruct (IH (fst (step st ev))) as [fresh Hf]. rewrite Hf.
    destruct (step_certificates st ev) as [-> | [c ->]].
    + by exists fresh.
    + exists (fresh ++ [c])%list. by rewrite <- app_assoc.
Qed.

(** Two runs one after the other: records R1 then R2 give [R2; R1]. *)
Example two_runs_newest_first :
  certificates (run_events initial
     ([EvUpload [cert1]] ++ one_run env1 ++ [EvUpload [cert2]] ++ one_run env2)%list)
  = [newCert cert2 env2; newCert cert1 env1].
Proof. reflexivity. Qed.

(** ** C9: records made by the pipeline always carry their file *)

Lemma files_retained_step (st : AppState) (ev : Event) :
  files_retained st -> files_retained (fst (step st ev)).
Proof.
  unfold files_retained. intros H c Hc.
  destruct ev as [files| |k env|c']; simpl in Hc.
  - unfold handleFileUpload in Hc. destruct (head files); [|by apply H].
    destruct (endsWith _ _); simpl in Hc; by apply H.
  - unfold simulateUnrevoke_start in Hc. destruct (selectedFile st); simpl in Hc; by apply H.
  - unfold tick in Hc. destruct (pending st !! k) as [r|]; [|by apply H].
    destruct (run_left r) as [|[|n]]; simpl in Hc;
      try (apply elem_of_cons in Hc as [-> | Hc];
           [exists (run_file r); reflexivity|]); by apply H.
  - unfold handleDownload in Hc. destruct (cert_file c'); by apply H.
Qed.

Lemma files_retained_run (st : AppState) (evs : list Event) :
  files_retained st -> files_retained (run_events st evs).
Proof.
  revert st. induction evs as [|ev evs IH]; intros st H; simpl; [done|].
  apply IH, files_retained_step, H.
Qed.

(** C9: every record in the list of a state reached from the initial state
    carries a retained [File], so downloading it (in any state) takes the
    success branch of [handleDownload], never the "Download failed" one. *)
Theorem pipeline_records_downloadable (evs : list Event) (c : CertificateInfo) (st : AppState) :
  c ∈ certificates (run_events initial evs) ->
  exists f, cert_file c = JsFileVal f /\
    step st (EvDownload c) = (st, [OSave (download_name (cert_name c)) (file_bytes f)]).
Proof.
  intros Hc.
  destruct (files_retained_run initial evs ltac:(intros ? Hn; inversion Hn) c Hc) as [f Hf].
  exists f. split; [done|]. simpl. unfold handleDownload. by rewrite Hf.
Qed.

Lemma pipeline_records_downloadable_witness :
  newCert cert1 env1 ∈ certificates (run_events initial ([EvUpload [cert1]] ++ one_run env1)%list) /\
  exists f, cert_file (newCert cert1 env1) = JsFileVal f /\
    step initial (EvDownload (newCert cert1 env1)) =
      (initial, [OSave (download_name (cert_name (newCert cert1 env1))) (file_bytes f)]).
Proof.
  assert (Hin : newCert cert1 env1 ∈
            certificates (run_events initial ([EvUpload [cert1]] ++ one_run env1)%list))
    by (simpl; left).
  split; [exact Hin|].
  exact (pipeline_records_downloadable _ _ initial Hin).
Defined.

(** ** C8: record identifiers come from the completion clock *)

(** C8 fails: the two distinct records produced by [concurrent_runs] have
    the same identifier [cert_1700000005000]. *)
Lemma record_ids_collide :
  certificates (run_events initial concurrent_runs)
    = [newCert cert1 env_dist; newCert cert1 env_dev] /\
  newCert cert1 env_dist <> newCert cert1 env_dev /\
  cert_id (newCert cert1 env_dist) = cert_id (newCert cert1 env_dev).
Proof.
  split; [reflexivity|]. split; [|reflexivity].
  intros Heq. apply (f_equal cert_type) in Heq. vm_compute in Heq. discriminate.
Qed.

(** C8 (as the code behaves): a record's identifier is [cert_] followed by
    the decimal rendering of [Date.now()] at completion, so two records
    have the same identifier exactly when their completion clock readings
    are equal; nothing else makes identifiers unique. *)
Theorem record_id_from_completion_clock (f1 f2 : File) (e1 e2 : Env) :
  cert_id (newCert f1 e1) = "cert_" +:+ pretty (now_id e1) /\
  (cert_id (newCert f1 e1) = cert_id (newCert f2 e2) <-> now_id e1 = now_id e2).
Proof.
  split; [reflexivity|]. simpl. unfold template_cert. split.
  - intros H. apply (inj (String.append "cert_")) in H. by apply (inj pretty) in H.
  - by intros ->.
Qed.

(** ** C5: display name and export name *)

Example display_name_mycert :
  cert_name (newCert (mkFile "mycert.p12" []) env1) = "mycert" /\
  download_name (cert_name (newCert (mkFile "mycert.p12" []) env1)) = "mycert.p12".
Proof. split; reflexivity. Qed.

(** C5 fails: for [a.p12.p12] the display name is [a.p12], which already
    ends in [.p12], so the export name is [a.p12], not the original name. *)
Lemma export_name_not_original :
  cert_name (newCert (mkFile "a.p12.p12" []) env1) = "a.p12" /\
  download_name (cert_name (newCert (mkFile "a.p12.p12" []) env1)) <> "a.p12.p12".
Proof. split; [reflexivity | vm_compute; discriminate]. Qed.

Lemma substring_length_0 (n : nat) (s : string) : String.substring n 0 s = "".
Proof. revert s; induction n as [|n IH]; intros [|a s]; simpl; auto. Qed.

Lemma substring_0_app (p s : string) :
  String.substring 0 (String.length p) (p +:+ s) = p.
Proof.
  induction p as [|a p IH]; simpl; [apply substring_length_0 | by rewrite IH].
Qed.

Lemma str_app_cons (a : Ascii.ascii) (s t : string) : String a s +:+ t = String a (s +:+ t).
Proof. reflexivity. Qed.

Lemma str_app_nil (t : string) : "" +:+ t = t.
Proof. reflexivity. Qed.

(** [.p12] cannot start inside a string and end inside a following [.p12]. *)
Lemma prefix_p12_shift (a : Ascii.ascii) (s : string) :
  String.prefix ".p12" (String a s) = false ->
  String.prefix ".p12" (String a (s +:+ ".p12")) = false.
Proof.
  intros H. destruct s as [|b [|c [|d s]]]; rewrite ?str_app_cons, ?str_app_nil;
    cbn -[Ascii.ascii_dec] in *;
    repeat (destruct (Ascii.ascii_dec _ _); cbn -[Ascii.ascii_dec] in *);
    first [congruence | destruct s; cbn in *; congruence].
Qed.

Lemma index_cons (pat : string) (a : Ascii.ascii) (s : string) :
  String.index 0 pat (String a s) =
  if String.prefix pat (String a s) then Some 0
  else match String.index 0 pat s with Some n => Some (S n) | None => None end.
Proof. reflexivity. Qed.

Lemma index_p12_suffix (s : string) :
  String.index 0 ".p12" s = None ->
  String.index 0 ".p12" (s +:+ ".p12") = Some (String.length s).
Proof.
  induction s as [|a s IH]; intros H; [reflexivity|].
  rewrite str_app_cons, index_cons. rewrite index_cons in H.
  destruct (String.prefix ".p12" (String a s)) eqn:Hp; [discriminate|].
  rewrite (prefix_p12_shift a s Hp).
  destruct (String.index 0 ".p12" s); [discriminate|].
  by rewrite IH.
Qed.

Lemma index_app_some (p pat : string) :
  pat <> "" -> is_Some (String.index 0 pat (p +:+ pat)).
Proof.
  intros Hpat. induction p as [|a p IH].
  - rewrite str_app_nil. destruct pat as [|b pat]; [done|].
    assert (Hr : forall t, String.prefix t t = true).
    { induction t as [|x t IHt]; simpl; [done|].
      destruct (Ascii.ascii_dec x x); [exact IHt | done]. }
    rewrite index_cons, Hr. by eexists.
  - rewrite str_app_cons, index_cons.
    destruct (String.prefix pat (String a (p +:+ pat))); [by eexists|].
    destruct IH as [i ->]. by eexists.
Qed.

(** C5 (as the code behaves): for a source name [s ++ ".p12"] in which
    [.p12] occurs only as the suffix ([s] does not contain [.p12]), the
    record's display name is [s] and the export name is [s ++ ".p12"],
    the original file name. *)
Theorem display_name_roundtrip (s : string) (f : File) (env : Env) :
  String.index 0 ".p12" s = None ->
  file_name f = s +:+ ".p12" ->
  cert_name (newCert f env) = s /\
  download_name (cert_name (newCert f env)) = file_name f.
Proof.
  intros Hs Hf. simpl. unfold replace. rewrite Hf, (index_p12_suffix s Hs).
  rewrite substring_0_app, length_app_str. simpl.
  replace (String.length s + 4 - (String.length s + 4))%nat with 0%nat by lia.
  rewrite substring_length_0.
  assert (Happ : forall t : string, t +:+ "" = t)
    by (induction t as [|x t IHt]; [done | by rewrite str_app_cons, IHt]).
  rewrite Happ. split; [done|].
  unfold download_name.
  destruct (endsWith s ".p12") eqn:E; [|done].
  apply endsWith_spec in E as [p ->].
  destruct (index_app_some p ".p12" ltac:(discriminate)) as [i Hi].
  congruence.
Qed.

Lemma display_name_roundtrip_witness :
  (String.index 0 ".p12" "mycert" = None /\ file_name (mkFile "mycert.p12" []) = "mycert" +:+ ".p12") /\
  (cert_name (newCert (mkFile "mycert.p12" []) env1) = "mycert" /\
   download_name (cert_name (newCert (mkFile "mycert.p12" []) env1)) = "mycert.p12").
Proof.
  split; [split; reflexivity|].
  apply (display_name_roundtrip "mycert" (mkFile "mycert.p12" []) env1); reflexivity.
Defined.

Lemma download_missing_artifact_fails_witness :
  (forall f, cert_file (mkCert "cert_1" "old" Active 0 0 "com.example.app" Development JsUndefined)
               <> JsFileVal f) /\
  (step initial (EvDownload (mkCert "cert_1" "old" Active 0 0 "com.example.app" Development JsUndefined))
     = (initial, [OToast toast_download_failed]) /\
   toast_variant toast_download_failed = VDestructive).
Proof.
  assert (H : forall f, cert_file (mkCert "cert_1" "old" Active 0 0 "com.example.app"
                                   Development JsUndefined) <> JsFileVal f)
    by (intros f; simpl; discriminate).
  split; [exact H|]. exact (download_missing_artifact_fails initial _ H).
Defined.

Lemma download_roundtrip_bytes_witness :
  cert_file (newCert cert1 env1) = JsFileVal cert1 /\
  step initial (EvDownload (newCert cert1 env1)) =
    (initial, [OSave (download_name (cert_name (newCert cert1 env1))) [Byte.x30; Byte.x82]]).
Proof.
  split; [reflexivity|].
  exact (download_roundtrip_bytes initial (newCert cert1 env1) cert1 eq_refl).
Defined.

(** ** Further properties of the component *)

(** *** The busy flag *)

Lemma step_busy_mono (st : AppState) (ev : Event) :
  isProcessing st = true -> isProcessing (fst (step st ev)) = true.
Proof.
  intros H. destruct ev as [files| |k env|c]; simpl.
  - unfold handleFileUpload. destruct (head files); [destruct (endsWith _ _)|]; done.
  - unfold simulateUnrevoke_start. by destruct (selectedFile st).
  - unfold tick. destruct (pending st !! k) as [r|]; [|done].
    by destruct (run_left r) as [|[|n]].
  - unfold handleDownload. by destruct (cert_file c).
Qed.

(** Once a run has been started the busy flag is [true] for good: no
    handler ever sets it back to [false]. *)
Theorem busy_never_cleared (st : AppState) (evs : list Event) :
  isProcessing st = true -> isProcessing (run_events st evs) = true.
Proof.
  revert st. induction evs as [|ev evs IH]; intros st H; simpl; [done|].
  apply IH, step_busy_mono, H.
Qed.

Lemma idle_untouched_step (st : AppState) (ev : Event) :
  idle_untouched st -> idle_untouched (fst (step st ev)).
Proof.
  unfold idle_untouched. intros H Hb.
  destruct (isProcessing st) eqn:Eb.
  { rewrite (step_busy_mono st ev Eb) in Hb. discriminate. }
  destruct (H eq_refl) as [Hc Hp].
  destruct ev as [files| |k env|c]; simpl in *.
  - unfold handleFileUpload in *. destruct (head files); [destruct (endsWith _ _)|]; done.
  - unfold simulateUnrevoke_start in *. destruct (selectedFile st); simpl in *; [discriminate | by split].
  - unfold tick in *. by rewrite Hp.
  - unfold handleDownload in *. by destruct (cert_file c).
Qed.

(** From the page's initial state, as long as the busy flag is [false] no
    run has been started: the record list and the pending runs are empty. *)
Theorem idle_means_no_run (evs : list Event) :
  isProcessing (run_events initial evs) = false ->
  certificates (run_events initial evs) = [] /\ pending (run_events initial evs) = [].
Proof.
  assert (Hall : forall st, idle_untouched st -> idle_untouched (run_events st evs)).
  { induction evs as [|ev evs IH]; intros st H; simpl; [done|].
    apply IH, idle_untouched_step, H. }
  apply Hall. by intros _.
Qed.

(** *** The invariant of reachable states *)

Lemma reach_inv_initial : reach_inv initial.
Proof. split; [done | split; constructor]. Qed.

Lemma reach_inv_step (st : AppState) (ev : Event) :
  reach_inv st -> reach_inv (fst (step st ev)).
Proof.
  intros Hinv. pose proof Hinv as (Hs & Hp & Hc). destruct ev as [files| |k env|c]; simpl.
  - unfold handleFileUpload. destruct (head files) as [f|]; [|exact Hinv].
    destruct (endsWith (file_name f) ".p12") eqn:E; [|exact Hinv].
    split; [|by split]. simpl. by intros ? [= <-].
  - unfold simulateUnrevoke_start. destruct (selectedFile st) as [f|] eqn:E; [|exact Hinv].
    split; [done|]. split; [|done]. simpl.
    apply Forall_app. split; [done|]. constructor; [|constructor].
    split; [by apply Hs | simpl; lia].
  - unfold tick. destruct (pending st !! k) as [r|] eqn:Ek; [|exact Hinv].
    pose proof (Forall_lookup_1 _ _ _ _ Hp Ek) as [Hr Hl].
    destruct (run_left r) as [|[|n]] eqn:El.
    + lia.
    + split; [done|]. split; [by apply Forall_delete|].
      simpl. constructor; [|done]. exists (run_file r), env. split; [reflexivity | exact Hr].
    + split; [done|]. split; [|done]. simpl.
      apply Forall_insert; [done|]. simpl. simpl in Hl |- *.
      split; [exact Hr | lia].
  - unfold handleDownload. destruct (cert_file c); exact Hinv.
Qed.

Lemma reach_inv_run (st : AppState) (evs : list Event) :
  reach_inv st -> reach_inv (run_events st evs).
Proof.
  revert st. induction evs as [|ev evs IH]; intros st H; simpl; [done|].
  apply IH, reach_inv_step, H.
Qed.

(** Every pending run of a reachable state still awaits between one and
    five delays, and its captured file has a [.p12] name. *)
Theorem pending_runs_bounded (evs : list Event) (r : Run) :
  r ∈ pending (run_events initial evs) ->
  endsWith (file_name (run_file r)) ".p12" = true /\ 1 <= run_left r <= 5.
Proof.
  intros Hr. destruct (reach_inv_run initial evs reach_inv_initial) as (_ & Hp & _).
  rewrite Forall_forall in Hp. exact (Hp r Hr).
Qed.

(** In every reachable state the selected file, if any, has a [.p12] name,
    and every record was built by [newCert] from a file with a [.p12]
    name, which it retains. *)
Theorem reachable_files_p12 (evs : list Event) :
  (forall f, selectedFile (run_events initial evs) = Some f ->
             endsWith (file_name f) ".p12" = true) /\
  (forall c, c ∈ certificates (run_events initial evs) ->
     exists f env, c = newCert f env /\ cert_file c = JsFileVal f /\
                   endsWith (file_name f) ".p12" = true).
Proof.
  destruct (reach_inv_run initial evs reach_inv_initial) as (Hs & _ & Hc).
  split; [exact Hs|]. intros c Hin.
  rewrite Forall_forall in Hc. destruct (Hc c Hin) as (f & env & Heq & Hf).
  exists f, env. rewrite Heq. by split.
Qed.

(** Every record of a reachable state has status [active] and the fixed
    bundle identifier, and is rendered with the green "Active" badge: the
    [revoked] and [processing] branches of [getStatusBadge] are never
    reached for a record of the list. *)
Theorem records_always_active (evs : list Event) (c : CertificateInfo) :
  c ∈ certificates (run_events initial evs) ->
  cert_status c = Active /\ cert_bundleId c = "com.example.app" /\
  getStatusBadge (cert_status c) = (BadgeGreen, "Active").
Proof.
  intros Hin. destruct (proj2 (reachable_files_p12 evs) c Hin) as (f & env & Heq & _).
  by rewrite Heq.
Qed.

(** *** Timing of a run *)

(** Before its fifth delay has elapsed a run has produced nothing: the
    record list and the selected file are as at the click, the busy flag is
    [true], and the run awaits [5 - n] more delays. *)
Theorem no_record_before_fifth_delay (st : AppState) (f : File) (env : Env) (n : nat) :
  selectedFile st = Some f -> pending st = [] -> n < length steps ->
  run_events st (EvStart :: repeat (EvTick 0 env) n) =
    mkState (certificates st) (Some f) true [mkRun f (length steps - n)].
Proof.
  destruct st as [cs sel busy pend]; simpl. intros -> -> Hn.
  do 5 (destruct n as [|n]; [reflexivity|]). lia.
Qed.


(** *** Names *)

(** The name given to a downloaded file always ends in [.p12], and
    computing it twice changes nothing. *)
Theorem download_name_p12 (name : string) :
  endsWith (download_name name) ".p12" = true /\
  download_name (download_name name) = download_name name.
Proof.
  unfold download_name.
  destruct (endsWith name ".p12") eqn:E; cbv beta iota.
  - by rewrite E.
  - by rewrite endsWith_app.
Qed.

(** The issue date lies before the expiry date whenever the clock did not
    go back between the two [Date.now()] calls. *)
Theorem issue_before_expiry (f : File) (env : Env) :
  (now_issue env <= now_expiry env)%Z ->
  (cert_issueDate (newCert f env) < cert_expiryDate (newCert f env))%Z.
Proof. simpl. lia. Qed.

Lemma length_substring (s : string) (n m : nat) :
  String.length (String.substring n m s) = Nat.min m (String.length s - n).
Proof.
  revert n m; induction s as [|a s IH]; intros [|n] [|m]; simpl;
    try rewrite IH; try lia.
  destruct (String.length s - n); lia.
Qed.

(** The display name of a record made from a [.p12] file is exactly four
    characters shorter than the file name: [replace] removes one [.p12]. *)
Theorem display_name_length (f : File) (env : Env) :
  endsWith (file_name f) ".p12" = true ->
  String.length (cert_name (newCert f env)) = (String.length (file_name f) - 4)%nat.
Proof.
  intros E.
  change (cert_name (newCert f env)) with (replace (file_name f) ".p12" "").
  apply endsWith_spec in E as [p Hp].
  destruct (index_app_some p ".p12" ltac:(discriminate)) as [i Hi].
  rewrite <- Hp in Hi.
  pose proof (String.index_correct1 0 i ".p12" (file_name f) Hi) as Hsub.
  apply (f_equal String.length) in Hsub. rewrite length_substring in Hsub.
  change (String.length ".p12") with 4%nat in Hsub.
  unfold replace. rewrite Hi, !length_app_str, !length_substring. simpl. lia.
Qed.

(** *** The record counter *)

Lemma run_trace_fst (st : AppState) (evs : list Event) :
  fst (run_trace st evs) = run_events st evs.
Proof.
  revert st. induction evs as [|ev evs IH]; intros st; simpl; [done|].
  destruct (step st ev) as [st1 o1]. simpl. rewrite <- IH.
  by destruct (run_trace st1 evs).
Qed.

Lemma count_success_app (o1 o2 : list Output) :
  count_success (o1 ++ o2)%list = (count_success o1 + count_success o2)%nat.
Proof. unfold count_success. by rewrite List.filter_app, length_app. Qed.

Lemma count_success_other (t : Toast) :
  toast_title t <> "Success!" -> count_success [OToast t] = 0%nat.
Proof.
  intros Ht. unfold count_success. simpl.
  rewrite bool_decide_eq_false_2; [done|]. intros ->. by apply Ht.
Qed.

Lemma step_count (st : AppState) (ev : Event) :
  length (certificates (fst (step st ev))) =
    (length (certificates st) + count_success (snd (step st ev)))%nat.
Proof.
  destruct ev as [files| |k env|c]; simpl.
  - unfold handleFileUpload. destruct (head files) as [f|];
      [destruct (endsWith _ _)|]; simpl; rewrite count_success_other; try done; lia.
  - unfold simulateUnrevoke_start. destruct (selectedFile st); simpl;
      [unfold count_success; simpl; lia|].
    rewrite count_success_other; [lia | done].
  - unfold tick. destruct (pending st !! k) as [r|]; [|unfold count_success; simpl; lia].
    destruct (run_left r) as [|[|n]]; simpl; unfold count_success; simpl;
      rewrite ?bool_decide_eq_true_2 by done; simpl; lia.
  - unfold handleDownload. destruct (cert_file c); simpl;
      try (rewrite count_success_other; [lia | done]).
    unfold count_success; simpl; lia.
Qed.

(** The "N processed" counter ([certificates.length]) grows by exactly the
    number of "Success!" notifications emitted: over any sequence of
    events, records are added one per finished run and in no other way. *)
Theorem processed_count_matches_successes (st : AppState) (evs : list Event) :
  length (certificates (fst (run_trace st evs))) =
    (length (certificates st) + count_success (snd (run_trace st evs)))%nat.
Proof.
  revert st. induction evs as [|ev evs IH]; intros st; simpl.
  - unfold count_success; simpl; lia.
  - pose proof (step_count st ev) as Hs.
    destruct (step st ev) as [st1 o1]. specialize (IH st1).
    destruct (run_trace st1 evs) as [st2 o2]. simpl in *.
    rewrite count_success_app. lia.
Qed.

(** *** Through the rendered controls *)

Lemma ui_run_cons (st : AppState) (u : UiEvent) (us : list UiEvent) :
  ui_run st (u :: us) =
    (fst (ui_run (fst (ui_step st u)) us),
     (snd (ui_step st u) ++ snd (ui_run (fst (ui_step st u)) us))%list).
Proof.
  simpl. destruct (ui_step st u) as [st1 o1]. simpl.
  by destruct (ui_run st1 us).
Qed.

(** A click that reaches a handler is the corresponding event; any other
    click does nothing. *)
Lemma ui_step_is_step (st : AppState) (u : UiEvent) :
  ui_step st u = (st, []) \/ exists ev, ui_step st u = step st ev.
Proof.
  destruct u as [files| |k env|i]; unfold ui_step.
  - right. by exists (EvUpload files).
  - destruct (unrevoke_disabled st); [by left | right; by exists EvStart].
  - right. by exists (EvTick k env).
  - destruct (certificates st !! i) as [c|]; [destruct (download_disabled c)|];
      [by left | right; by exists (EvDownload c) | by left].
Qed.

Lemma single_flight_ui_step (st : AppState) (u : UiEvent) :
  single_flight st -> single_flight (fst (ui_step st u)).
Proof.
  intros Hsf. destruct u as [files| |k env|i]; simpl.
  - unfold handleFileUpload. destruct (head files); [destruct (endsWith _ _)|]; exact Hsf.
  - unfold unrevoke_disabled. destruct (selectedFile st) as [f|] eqn:Es; [|exact Hsf].
    destruct (isProcessing st) eqn:Eb; [exact Hsf|].
    destruct Hsf as [(_ & Hp & Hc) | [Hb _]]; [|congruence].
    simpl. unfold simulateUnrevoke_start. rewrite Es. right. simpl.
    rewrite Hp, Hc. split; reflexivity.
  - unfold tick. destruct (pending st !! k) as [r|] eqn:Ek; [|exact Hsf].
    destruct Hsf as [(_ & Hp & _) | [Hb Hl]]; [by rewrite Hp in Ek|].
    right. destruct (run_left r) as [|[|n]]; simpl; split; try done;
      rewrite ?length_delete, ?length_insert by eauto; simpl;
      try (apply lookup_lt_Some in Ek); lia.
  - destruct (certificates st !! i) as [c|]; [|exact Hsf].
    destruct (download_disabled c); [exact Hsf|]. simpl.
    unfold handleDownload. destruct (cert_file c); exact Hsf.
Qed.

(** Through the page's controls at most one run is ever started, so at
    most one record is produced in the page's lifetime: the Unrevoke button
    is disabled while [isProcessing] holds, and nothing clears it. *)
Theorem ui_at_most_one_record (us : list UiEvent) :
  (length (certificates (fst (ui_run initial us))) <= 1)%nat /\
  (length (pending (fst (ui_run initial us))) <= 1)%nat.
Proof.
  assert (Hall : forall st, single_flight st -> single_flight (fst (ui_run st us))).
  { induction us as [|u us IH]; intros st H; [done|].
    rewrite ui_run_cons. simpl. apply IH, single_flight_ui_step, H. }
  destruct (Hall initial (or_introl (conj eq_refl (conj eq_refl eq_refl))))
    as [(_ & -> & ->) | (_ & Hl)]; simpl; lia.
Qed.

Lemma toast_ne (t1 t2 : Toast) :
  toast_title t1 <> toast_title t2 -> OToast t1 <> OToast t2.
Proof. intros H [= ->]. by apply H. Qed.

Ltac no_output :=
  repeat first [ apply not_elem_of_nil | apply not_elem_of_cons; split ];
  try (apply toast_ne; simpl; discriminate); try discriminate.

Lemma ui_step_no_missing (st : AppState) (u : UiEvent) :
  OToast toast_missing ∉ snd (ui_step st u).
Proof.
  destruct u as [files| |k env|i]; simpl.
  - unfold handleFileUpload. destruct (head files); [destruct (endsWith _ _)|]; no_output.
  - unfold unrevoke_disabled. destruct (selectedFile st) eqn:Es; [|no_output].
    destruct (isProcessing st); [no_output|].
    simpl. unfold simulateUnrevoke_start. rewrite Es. no_output.
  - unfold tick. destruct (pending st !! k) as [r|]; [|no_output].
    destruct (run_left r) as [|[|n]]; no_output.
  - destruct (certificates st !! i) as [c|]; [|no_output].
    destruct (download_disabled c); [no_output|]. simpl.
    unfold handleDownload. destruct (cert_file c); no_output.
Qed.

(** Through the page's controls the "Missing file" notification is never
    emitted, from any state: the Unrevoke button is disabled whenever no
    file is selected. *)
Theorem ui_never_missing_file (st : AppState) (us : list UiEvent) :
  OToast toast_missing ∉ snd (ui_run st us).
Proof.
  revert st. induction us as [|u us IH]; intros st; [no_output|].
  rewrite ui_run_cons. simpl. apply not_elem_of_app. split; [apply ui_step_no_missing | apply IH].
Qed.

Lemma ui_step_no_failed (st : AppState) (u : UiEvent) :
  files_retained st -> OToast toast_download_failed ∉ snd (ui_step st u).
Proof.
  intros Hr. destruct u as [files| |k env|i]; simpl.
  - unfold handleFileUpload. destruct (head files); [destruct (endsWith _ _)|]; no_output.
  - destruct (unrevoke_disabled st); [no_output|]. simpl.
    unfold simulateUnrevoke_start. destruct (selectedFile st); no_output.
  - unfold tick. destruct (pending st !! k) as [r|]; [|no_output].
    destruct (run_left r) as [|[|n]]; no_output.
  - destruct (certificates st !! i) as [c|] eqn:Ei; [|no_output].
    destruct (download_disabled c); [no_output|]. simpl.
    destruct (Hr c (list_elem_of_lookup_2 _ _ _ Ei)) as [f Hf].
    unfold handleDownload. rewrite Hf. no_output.
Qed.

(** Through the page's controls, starting from the initial page, the
    "Download failed" notification is never emitted: every rendered record
    holds its file, so each Download click saves it. *)
Theorem ui_never_download_failed (us : list UiEvent) :
  OToast toast_download_failed ∉ snd (ui_run initial us).
Proof.
  assert (Hall : forall st, files_retained st ->
            OToast toast_download_failed ∉ snd (ui_run st us)).
  { induction us as [|u us IH]; intros st Hr; [no_output|].
    rewrite ui_run_cons. simpl. apply not_elem_of_app.
    split; [by apply ui_step_no_failed|]. apply IH.
    destruct (ui_step_is_step st u) as [-> | [ev ->]]; [done|].
    by apply files_retained_step. }
  apply Hall. intros c Hc. inversion Hc.
Qed.

(** ** Witnesses *)

Lemma busy_never_cleared_witness :
  isProcessing (run_events initial [EvUpload [cert1]; EvStart]) = true /\
  isProcessing (run_events (run_events initial [EvUpload [cert1]; EvStart])
                  (repeat (EvTick 0 env1) 5)) = true.
Proof. split; [reflexivity | apply busy_never_cleared; reflexivity]. Defined.

Lemma idle_means_no_run_witness :
  isProcessing (run_events initial [EvUpload [cert1]]) = false /\
  (certificates (run_events initial [EvUpload [cert1]]) = [] /\
   pending (run_events initial [EvUpload [cert1]]) = []).
Proof. split; [reflexivity | apply idle_means_no_run; reflexivity]. Defined.

Lemma pending_runs_bounded_witness :
  mkRun cert1 5 ∈ pending (run_events initial [EvUpload [cert1]; EvStart]) /\
  (endsWith (file_name (run_file (mkRun cert1 5))) ".p12" = true /\
   1 <= run_left (mkRun cert1 5) <= 5).
Proof.
  assert (H : mkRun cert1 5 ∈ pending (run_events initial [EvUpload [cert1]; EvStart]))
    by (simpl; left).
  split; [exact H | exact (pending_runs_bounded _ _ H)].
Defined.

Lemma records_always_active_witness :
  newCert cert1 env1 ∈ certificates (run_events initial scenario) /\
  (cert_status (newCert cert1 env1) = Active /\
   cert_bundleId (newCert cert1 env1) = "com.example.app" /\
   getStatusBadge (cert_status (newCert cert1 env1)) = (BadgeGreen, "Active")).
Proof.
  assert (H : newCert cert1 env1 ∈ certificates (run_events initial scenario))
    by (simpl; left).
  split; [exact H | exact (records_always_active _ _ H)].
Defined.

Lemma no_record_before_fifth_delay_witness :
  (selectedFile (mkState [] (Some cert1) false []) = Some cert1 /\
   pending (mkState [] (Some cert1) false []) = [] /\ 4 < length steps) /\
  run_events (mkState [] (Some cert1) false []) (EvStart :: repeat (EvTick 0 env1) 4) =
    mkState [] (Some cert1) true [mkRun cert1 (length steps - 4)].
Proof.
  split; [repeat split; simpl; lia|].
  apply (no_record_before_fifth_delay (mkState [] (Some cert1) false []) cert1 env1 4);
    simpl; first [reflexivity | lia].
Defined.


Lemma display_name_length_witness :
  endsWith (file_name cert1) ".p12" = true /\
  String.length (cert_name (newCert cert1 env1)) = (String.length (file_name cert1) - 4)%nat.
Proof. split; [reflexivity | apply display_name_length; reflexivity]. Defined.

Lemma issue_before_expiry_witness :
  (now_issue env1 <= now_expiry env1)%Z /\
  (cert_issueDate (newCert cert1 env1) < cert_expiryDate (newCert cert1 env1))%Z.
Proof.
  split; [simpl; lia | apply issue_before_expiry; simpl; lia].
Defined.
